(** * over-sold-bot: [prices.py]

    A shallow embedding of the command-line price report [prices.py]
    (argument validation, summary statistics, report rendering) and the
    properties of it that its specification states.

    Layout:
    - [Py]        the Python built-ins the program calls ([str.strip],
                  [str.upper], [str.lower], [int], [str], [in]), their
                  exceptions and the [try]/[except] combinators;
    - [Prices]    the functions of [prices.py], the pandas operations
                  they call, and the run of [main] against the console
                  and the data source;
    - the vocabulary of the statements, then lemmas and theorems. *)

From Stdlib Require Import Bool List ZArith Lia Ascii String.
From Stdlib Require Import Decimal DecimalString DecimalPos.
From Stdlib Require Import SpecFloat.
Import ListNotations.

Local Open Scope Z_scope.
Local Open Scope string_scope.

(* ================================================================== *)
(** ** Python values, exceptions and built-ins *)
(* ================================================================== *)

Module Py.

(** *** Exceptions

    The three [except] clauses of the program ([except ValueError],
    [except Exception], bare [except]) tell classes apart along the chain
    [ValueError <: Exception <: BaseException]; an exception is recorded
    with the most specific of the three classes it is an instance of. *)

Inductive exn_class : Type :=
| BaseException   (* e.g. KeyboardInterrupt: not an Exception *)
| Exception       (* an Exception that is not a ValueError *)
| ValueError.     (* ValueError and its subclasses *)

Record exn : Type := mkExn { exn_cls : exn_class; exn_str : string }.

Definition ValueError_ (m : string) : exn := mkExn ValueError m.

(** [isinstance e c] *)
Definition isinstance (e : exn) (c : exn_class) : bool :=
  match c, exn_cls e with
  | BaseException, _ => true
  | Exception, (Exception | ValueError) => true
  | ValueError, ValueError => true
  | _, _ => false
  end.

(** The outcome of evaluating a pure Python expression or function. *)
Inductive result (A : Type) : Type :=
| Return (a : A)
| Raise (e : exn).
Arguments Return {A} a.
Arguments Raise {A} e.

Definition bind {A B} (r : result A) (k : A -> result B) : result B :=
  match r with
  | Return a => k a
  | Raise e => Raise e
  end.

(** [try: body  except C as e: handler e] *)
Definition try_except {A} (body : result A) (c : exn_class)
           (handler : exn -> result A) : result A :=
  match body with
  | Return a => Return a
  | Raise e => if isinstance e c then handler e else Raise e
  end.

(** *** Strings

    A [str] is the sequence of its characters.  The built-ins are
    reproduced on the ASCII range, where CPython decides them by fixed
    tables; a character above 127 is left alone by [upper]/[lower] and is
    neither whitespace nor a digit (the Unicode database is not
    reproduced). *)

Definition ord (c : ascii) : N := N_of_ascii c.

Definition in_range (lo hi : N) (c : ascii) : bool :=
  ((lo <=? ord c) && (ord c <=? hi))%N.

(** Whitespace of [str.strip()] / [str.isspace()]: TAB..CR, FS..US, SPACE. *)
Definition Py_UNICODE_ISSPACE (c : ascii) : bool :=
  in_range 9 13 c || in_range 28 32 c.

(** Whitespace of the integer parser (C locale): TAB..CR and SPACE. *)
Definition Py_ISSPACE (c : ascii) : bool :=
  in_range 9 13 c || in_range 32 32 c.

Definition upper_char (c : ascii) : ascii :=
  if in_range 97 122 c then ascii_of_N (ord c - 32) else c.

Definition lower_char (c : ascii) : ascii :=
  if in_range 65 90 c then ascii_of_N (ord c + 32) else c.

Fixpoint map_chars (f : ascii -> ascii) (s : string) : string :=
  match s with
  | EmptyString => EmptyString
  | String c s' => String (f c) (map_chars f s')
  end.

Fixpoint all_chars (p : ascii -> bool) (s : string) : bool :=
  match s with
  | EmptyString => true
  | String c s' => p c && all_chars p s'
  end.

(** [s.upper()], [s.lower()] *)
Definition upper : string -> string := map_chars upper_char.
Definition lower : string -> string := map_chars lower_char.

(** Drop the longest prefix (suffix) of characters satisfying [p]. *)
Fixpoint lskip (p : ascii -> bool) (s : string) : string :=
  match s with
  | EmptyString => EmptyString
  | String c s' => if p c then lskip p s' else s
  end.

Fixpoint rskip (p : ascii -> bool) (s : string) : string :=
  match s with
  | EmptyString => EmptyString
  | String c s' =>
      match rskip p s' with
      | EmptyString => if p c then EmptyString else String c EmptyString
      | r => String c r
      end
  end.

(** [s.strip()] *)
Definition strip (s : string) : string :=
  rskip Py_UNICODE_ISSPACE (lskip Py_UNICODE_ISSPACE s).

(** [not s] *)
Definition is_empty (s : string) : bool :=
  match s with EmptyString => true | _ => false end.

(** [x in l] for a list of strings *)
Definition str_in (x : string) (l : list string) : bool :=
  existsb (String.eqb x) l.

(** [sub in s] for strings *)
Fixpoint contains (sub s : string) : bool :=
  prefix sub s ||
  match s with
  | EmptyString => false
  | String _ s' => contains sub s'
  end.

(** [sep.join(l)] *)
Definition join (sep : string) (l : list string) : string := concat sep l.

(** *** [str(n)] and [int(s)] *)

(** [str(n)], also the rendering of [{n}] in an f-string: the decimal
    numeral, with a leading [-] for a negative number. *)
Definition str_of_int (n : Z) : string :=
  NilZero.string_of_int (Z.to_int n).

Definition digit_value (c : ascii) : option Z :=
  if in_range 48 57 c then Some (Z.of_N (ord c - 48)) else None.

(** What the digit loop saw last. *)
Inductive seen : Type := SeenNothing | SeenDigit | SeenUnderscore.

(** The digit loop of the integer parser, base 10: digits, with single
    underscores allowed between two digits.  Returns the value read and
    the unread rest; [None] on an empty digit run, a leading, doubled or
    trailing underscore. *)
Fixpoint long_from_string_base (s : string) (prev : seen) (acc : Z)
  : option (Z * string) :=
  let stop := match prev with
              | SeenDigit => Some (acc, s)
              | _ => None
              end in
  match s with
  | EmptyString => stop
  | String c s' =>
      match digit_value c with
      | Some d => long_from_string_base s' SeenDigit (10 * acc + d)
      | None =>
          if Ascii.eqb c "_" then
            match prev with
            | SeenDigit => long_from_string_base s' SeenUnderscore acc
            | _ => None
            end
          else stop
      end
  end.

(** The text of the [ValueError] of a failed [int(s)].  The program only
    looks for the fixed words [invalid literal] in it; the argument is
    carried between quotes, without the escapes of [repr]. *)
Definition invalid_literal (s : string) : exn :=
  ValueError_ ("invalid literal for int() with base 10: '" ++ s ++ "'").

(** An optional sign in front of the digits. *)
Definition split_sign (s : string) : bool * string :=
  match s with
  | String c r =>
      if Ascii.eqb c "+" then (false, r)
      else if Ascii.eqb c "-" then (true, r)
      else (false, s)
  | EmptyString => (false, s)
  end.

(** [int(s)] for a [str]: optional surrounding whitespace, an optional
    sign, then the digit loop up to the end of the string.  Python
    integers are unbounded.  (The interpreter's optional cap on the
    length of converted numerals, [sys.set_int_max_str_digits], is
    run-time configuration outside the program and is taken as off.) *)
Definition int_of_str (s : string) : result Z :=
  let '(negative, s2) := split_sign (lskip Py_ISSPACE s) in
  match long_from_string_base s2 SeenNothing 0 with
  | Some (n, rest) =>
      if is_empty (lskip Py_ISSPACE rest)
      then Return (if negative then - n else n)
      else Raise (invalid_literal s)
  | None => Raise (invalid_literal s)
  end.

End Py.

(* ================================================================== *)
(** ** [prices.py]: argument validation *)
(* ================================================================== *)

Module Prices.
Import Py.

Definition msg_empty_ticker : string := "El ticker no puede estar vacío".

(** [validate_ticker(ticker)] *)
Definition validate_ticker (ticker : string) : result string :=
  if is_empty ticker || (String.length (strip ticker) =? 0)%nat
  then Raise (ValueError_ msg_empty_ticker)
  else Return (strip (upper ticker)).

Definition predefined_periods : list string :=
  ["1d"; "5d"; "1mo"; "3mo"; "6mo"; "1y"; "2y"; "5y"; "10y"; "max"].

Definition msg_days_too_small : string :=
  "El número de días debe ser mayor a 0".

Definition msg_days_too_large : string :=
  "El número máximo de días es 3650 (~10 años). Usa 'max' para obtener todos los datos disponibles".

Definition msg_invalid_period (period_str : string) : string :=
  "Período inválido '" ++ period_str ++
  "'. Usa un número de días (1-3650) o un período predefinido: " ++
  join ", " predefined_periods.

(** [validate_period(period_str)] *)
Definition validate_period (period_str : string) : result string :=
  if str_in (lower period_str) predefined_periods
  then Return (lower period_str)
  else
    try_except
      (bind (int_of_str period_str) (fun days =>
         if (days <? 1)%Z then Raise (ValueError_ msg_days_too_small)
         else if (days >? 3650)%Z then Raise (ValueError_ msg_days_too_large)
         else Return (str_of_int days ++ "d")))
      ValueError
      (fun e =>
         if contains "invalid literal" (exn_str e)
         then Raise (ValueError_ (msg_invalid_period period_str))
         else Raise e).

(* ------------------------------------------------------------------ *)
(** ** Numbers and tables handed over by pandas *)
(* ------------------------------------------------------------------ *)

(** Prices are binary64 numbers ([numpy.float64]), taken with the IEEE 754
    semantics of [SpecFloat] at precision 53 and maximal exponent 1024. *)
Definition float : Type := spec_float.

Definition prec : Z := 53.
Definition emax : Z := 1024.

Definition fsub : float -> float -> float := SFsub prec emax.
Definition fmul : float -> float -> float := SFmul prec emax.
Definition fdiv : float -> float -> float := SFdiv prec emax.
Definition fleb : float -> float -> bool := SFleb.
Definition fltb : float -> float -> bool := SFltb.

(** The binary64 number nearest to an integer. *)
Definition float_of_Z (z : Z) : float := binary_normalize prec emax z 0 false.

Definition is_nan (x : float) : bool :=
  match x with S754_nan => true | _ => false end.

Definition is_finite (x : float) : bool :=
  match x with S754_zero _ | S754_finite _ _ _ => true | _ => false end.

Definition is_zero (x : float) : bool :=
  match x with S754_zero _ => true | _ => false end.

(** A point in time ([datetime], or the [Timestamp] of an index entry),
    as seconds since the epoch; only ever handed to [strftime]. *)
Definition Timestamp : Type := Z.

(** One row of the frame returned by [Ticker.history]: the index entry
    and the five columns the program reads. *)
Record PriceRecord : Type := {
  Date : Timestamp;
  Open : float;
  High : float;
  Low : float;
  Close : float;
  Volume : Z
}.

Definition DataFrame : Type := list PriceRecord.

(** [df.empty], [len(df)], [df.tail(n)] *)
Definition empty (df : DataFrame) : bool :=
  match df with [] => true | _ => false end.

Definition tail (n : nat) (df : DataFrame) : DataFrame :=
  skipn (List.length df - n) df.

Definition IndexError_ : exn :=
  mkExn Exception "single positional indexer is out-of-bounds".

(** [s.iloc[0]] and [s.iloc[-1]] *)
Definition iloc_first {A} (s : list A) : result A :=
  match s with
  | [] => Raise IndexError_
  | x :: _ => Return x
  end.

Fixpoint iloc_last {A} (s : list A) : result A :=
  match s with
  | [] => Raise IndexError_
  | [x] => Return x
  | _ :: s' => iloc_last s'
  end.

(** [s.max()] and [s.min()], with pandas' default [skipna=True]: the
    extremum of the entries that are not NaN, NaN when there is none. *)
Definition keep_better (better : float -> float -> bool) (m y : float)
  : float := if better y m then y else m.

Definition pick (better : float -> float -> bool) (l : list float) : float :=
  match filter (fun x => negb (is_nan x)) l with
  | [] => S754_nan
  | x :: xs => fold_left (keep_better better) xs x
  end.

Definition Series_max : list float -> float := pick (fun y m => fltb m y).
Definition Series_min : list float -> float := pick (fun y m => fltb y m).

(** [s.mean()] of the integer column: the sum, accumulated in binary64
    (exact as long as it stays below 2^53), over the count. *)
Definition Series_mean (l : list Z) : float :=
  fdiv (float_of_Z (fold_right Z.add 0 l))
       (float_of_Z (Z.of_nat (List.length l))).

(* ------------------------------------------------------------------ *)
(** ** Summary statistics (lines 89-95 of [main]) *)
(* ------------------------------------------------------------------ *)

Record Summary : Type := {
  last_price : float;
  first_price : float;
  change : float;
  change_percent : float;
  max_price : float;
  min_price : float;
  avg_volume : float
}.

Definition hundred : float := Eval cbv in float_of_Z 100.

Definition summary (history : DataFrame) : result Summary :=
  bind (iloc_last (map Close history)) (fun last_price =>
  bind (iloc_first (map Close history)) (fun first_price =>
  let change := fsub last_price first_price in
  let change_percent := fmul (fdiv change first_price) hundred in
  let max_price := Series_max (map High history) in
  let min_price := Series_min (map Low history) in
  let avg_volume := Series_mean (map Volume history) in
  Return {| last_price := last_price; first_price := first_price;
            change := change; change_percent := change_percent;
            max_price := max_price; min_price := min_price;
            avg_volume := avg_volume |})).

(* ------------------------------------------------------------------ *)
(** ** The run: console, data source, exit *)
(* ------------------------------------------------------------------ *)

(** A fragment of a printed f-string: literal text, or a value together
    with the format it is rendered with. *)
Inductive piece : Type :=
| Txt (s : string)
| Strftime (t : Timestamp) (fmt : string)   (* [t.strftime(fmt)] *)
| Fix2 (x : float)                          (* [{x:.2f}]  *)
| Signed2 (x : float)                       (* [{x:+.2f}] *)
| Grouped0 (x : float)                      (* [{x:,.0f}] *)
| Frame (rows : list PriceRecord).
       (* the frame [display_data]: index and Open, High, Low, Close
          (after [.round(2)]), Volume (after [.astype(int)]) of [rows] *)

Definition line : Type := list piece.

(** What [stock.info] holds of the two keys the program asks for. *)
Record Info : Type := {
  longName : option string;
  shortName : option string
}.

(** [info.get('longName', info.get('shortName', default))] *)
Definition company_name_of (info : Info) (default : string) : string :=
  match longName info with
  | Some n => n
  | None => match shortName info with
            | Some n => n
            | None => default
            end
  end.

(** Everything of one run that the program does not decide: the two
    command-line arguments, the clock, and the answers of the data source
    for a symbol (and a period). *)
Record World : Type := {
  arg_ticker : string;
  arg_period : string;
  now : Timestamp;
  yf_info : string -> result Info;
  yf_history : string -> string -> result DataFrame
}.

(** What a run does that can be seen from outside, in order. *)
Inductive event : Type :=
| Print (l : line)
| GetInfo (symbol : string)
| GetHistory (symbol period : string).

Definition trace : Type := list event.

(** How a block of statements ends. *)
Inductive outcome (A : Type) : Type :=
| Done (a : A)
| Raised (e : exn)
| SystemExit (code : Z).
Arguments Done {A} a.
Arguments Raised {A} e.
Arguments SystemExit {A} code.

(** Statements: they add to the trace and end in an outcome. *)
Definition io (A : Type) : Type := trace -> outcome A * trace.

Definition ret {A} (a : A) : io A := fun t => (Done a, t).

Definition seq {A B} (m : io A) (k : A -> io B) : io B :=
  fun t =>
    match m t with
    | (Done a, t') => k a t'
    | (Raised e, t') => (Raised e, t')
    | (SystemExit c, t') => (SystemExit c, t')
    end.

Notation "x <- m ;; k" := (seq m (fun x => k))
  (at level 61, m at next level, right associativity).
Notation "m ;;; k" := (seq m (fun _ => k))
  (at level 61, right associativity).

Definition lift {A} (r : result A) : io A :=
  fun t => match r with
           | Return a => (Done a, t)
           | Raise e => (Raised e, t)
           end.

Definition print (l : line) : io unit :=
  fun t => (Done tt, (t ++ [Print l])%list).

Definition sys_exit (code : Z) : io unit :=
  fun t => (SystemExit code, t).

(** The property [stock.info] and the call [stock.history(period=...)]. *)
Definition stock_info (w : World) (symbol : string) : io Info :=
  fun t => lift (yf_info w symbol) (t ++ [GetInfo symbol])%list.

Definition stock_history (w : World) (symbol period : string)
  : io DataFrame :=
  fun t => lift (yf_history w symbol period)
                (t ++ [GetHistory symbol period])%list.

(** [try: body  except: handler] -- a bare [except] takes everything,
    [SystemExit] included. *)
Definition try_bare {A} (body handler : io A) : io A :=
  fun t =>
    match body t with
    | (Done a, t') => (Done a, t')
    | (Raised _, t') | (SystemExit _, t') => handler t'
    end.

(** [try: body  except C1 as e: h1 e  except C2 as e: h2 e]: the first
    clause whose class the exception is an instance of handles it;
    what a handler raises is not offered to the other clause. *)
Fixpoint dispatch {A} (clauses : list (exn_class * (exn -> io A)))
         (e : exn) : io A :=
  match clauses with
  | [] => fun t => (Raised e, t)
  | (c, h) :: rest => if isinstance e c then h e else dispatch rest e
  end.

Definition try_clauses {A} (body : io A)
           (clauses : list (exn_class * (exn -> io A))) : io A :=
  fun t =>
    match body t with
    | (Raised e, t') => dispatch clauses e t'
    | r => r
    end.

(* ------------------------------------------------------------------ *)
(** ** [main] *)
(* ------------------------------------------------------------------ *)

Definition nl : string := String (ascii_of_nat 10) EmptyString.

Definition banner_line (w : World) (ticker_symbol : string) : line :=
  [Txt "=== Precios históricos de "; Txt ticker_symbol; Txt " - ";
   Strftime (now w) "%Y-%m-%d %H:%M"; Txt " ==="].

Definition period_line (period : string) : line :=
  [Txt "Período consultado: "; Txt period; Txt nl].

Definition company_line (company_name ticker_symbol : string) : line :=
  [Txt "📈 "; Txt company_name; Txt " ("; Txt ticker_symbol; Txt ")"; Txt nl].

Definition warning_line (ticker_symbol : string) : line :=
  [Txt "⚠️  Advertencia: No se pudo obtener información de la empresa para ";
   Txt ticker_symbol; Txt nl].

Definition fetching_line : line := [Txt "Obteniendo datos históricos..."].

Definition no_data_lines (ticker_symbol period : string) : list line :=
  [ [Txt "❌ No se encontraron datos para "; Txt ticker_symbol;
     Txt " en el período "; Txt period];
    [Txt (nl ++ "Posibles causas:")];
    [Txt "- Ticker incorrecto o no existe"];
    [Txt "- Período muy amplio para este ticker"];
    [Txt "- Problemas de conexión"] ].

Definition truncation_notice : line :=
  [Txt "(Mostrando las últimas 20 sesiones)"].

Definition validation_error_line (e : exn) : line :=
  [Txt "❌ Error de validación: "; Txt (exn_str e)].

Definition fetch_error_line (e : exn) : line :=
  [Txt "❌ Error al obtener datos: "; Txt (exn_str e)].

Definition remediation_hints : list line :=
  [ [Txt (nl ++ "Posibles soluciones:")];
    [Txt "- Verifica tu conexión a internet"];
    [Txt "- Confirma que el ticker sea correcto"];
    [Txt "- Intenta con un período menor"];
    [Txt "- Espera unos minutos antes de intentar nuevamente"] ].

Fixpoint print_all (ls : list line) : io unit :=
  match ls with
  | [] => ret tt
  | l :: ls' => print l ;;; print_all ls'
  end.

(** [parse_arguments()]: the two positional arguments. *)
Definition parse_arguments (w : World) : io (string * string) :=
  ret (arg_ticker w, arg_period w).

(** The lines of the summary block. *)
Definition summary_lines (st : Summary) : list line :=
  [ [Txt "💰 Resumen del período:"];
    [Txt "   Precio inicial: $"; Fix2 (first_price st)];
    [Txt "   Precio final: $"; Fix2 (last_price st)];
    [Txt "   Cambio total: $"; Fix2 (change st); Txt " (";
     Signed2 (change_percent st); Txt "%)"];
    [Txt "   Precio máximo: $"; Fix2 (max_price st)];
    [Txt "   Precio mínimo: $"; Fix2 (min_price st)];
    [Txt "   Volumen promedio: "; Grouped0 (avg_volume st)] ].

(** The body of the outer [try] of [main]. *)
Definition main_body (w : World) : io unit :=
  args <- parse_arguments w ;;
  ticker_symbol <- lift (validate_ticker (fst args)) ;;
  period <- lift (validate_period (snd args)) ;;
  print (banner_line w ticker_symbol) ;;;
  print (period_line period) ;;;
  (* stock = yf.Ticker(ticker_symbol) *)
  try_bare
    (info <- stock_info w ticker_symbol ;;
     let company_name := company_name_of info ticker_symbol in
     print (company_line company_name ticker_symbol))
    (print (warning_line ticker_symbol)) ;;;
  print fetching_line ;;;
  history <- stock_history w ticker_symbol period ;;
  if empty history then
    print_all (no_data_lines ticker_symbol period)
    (* return *)
  else
    print [Txt (nl ++ "📊 Datos obtenidos: ");
           Txt (str_of_int (Z.of_nat (List.length history)));
           Txt " registros"] ;;;
    first_date <- lift (iloc_first (map Date history)) ;;
    last_date <- lift (iloc_last (map Date history)) ;;
    print [Txt "Período: "; Strftime first_date "%Y-%m-%d"; Txt " a ";
           Strftime last_date "%Y-%m-%d"; Txt nl] ;;;
    st <- lift (summary history) ;;
    print_all (summary_lines st) ;;;
    print [Txt (nl ++ "📈 Historial de precios ("); Txt period; Txt "):"] ;;;
    let display_data := history in
    if (20 <? List.length display_data)%nat then
      print truncation_notice ;;;
      print [Frame (tail 20 display_data)]
    else
      print [Frame display_data].

(** [main()] *)
Definition main (w : World) : io unit :=
  try_clauses (main_body w)
    [ (ValueError, fun e =>
         print (validation_error_line e) ;;;
         sys_exit 1);
      (Exception, fun e =>
         print (fetch_error_line e) ;;;
         print_all remediation_hints ;;;
         sys_exit 1) ].

(** The process: [main()] from an empty console.  The exit status is 0
    when [main] returns and the argument of [sys.exit] when that is
    called; when an exception leaves [main] the interpreter decides. *)
Definition run (w : World) : outcome unit * trace := main w [].

Definition exit_status (o : outcome unit) : option Z :=
  match o with
  | Done _ => Some 0
  | SystemExit c => Some c
  | Raised _ => None
  end.

(** What was printed, and which frames were printed. *)
Definition printed (t : trace) : list line :=
  flat_map (fun ev => match ev with Print l => [l] | _ => [] end) t.



Definition history_calls (t : trace) : nat :=
  List.length (filter (fun ev => match ev with GetHistory _ _ => true
                                          | _ => false end) t).

End Prices.

Import Py Prices.

(* ================================================================== *)
(** ** Vocabulary of the statements *)
(* ================================================================== *)

(** The characters an accepted integer literal is made of. *)
Definition literal_char (c : ascii) : bool :=
  Py_ISSPACE c
  || match digit_value c with Some _ => true | None => false end
  || Ascii.eqb c "_" || Ascii.eqb c "+" || Ascii.eqb c "-".

(** The value of a numeral read from its first digit on. *)
Fixpoint uacc (acc : Z) (u : Decimal.uint) : Z :=
  match u with
  | Decimal.Nil => acc
  | Decimal.D0 u => uacc (10 * acc + 0) u
  | Decimal.D1 u => uacc (10 * acc + 1) u
  | Decimal.D2 u => uacc (10 * acc + 2) u
  | Decimal.D3 u => uacc (10 * acc + 3) u
  | Decimal.D4 u => uacc (10 * acc + 4) u
  | Decimal.D5 u => uacc (10 * acc + 5) u
  | Decimal.D6 u => uacc (10 * acc + 6) u
  | Decimal.D7 u => uacc (10 * acc + 7) u
  | Decimal.D8 u => uacc (10 * acc + 8) u
  | Decimal.D9 u => uacc (10 * acc + 9) u
  end.


(** The place of a number that is not NaN on the line: its class (the
    infinities, the negative and the positive finite numbers, zero), then
    exponent and mantissa, reversed for the negative numbers. *)
Definition key (x : float) : Z * Z * Z :=
  match x with
  | S754_nan => (0, 0, 0)
  | S754_zero _ => (0, 0, 0)
  | S754_infinity true => (-2, 0, 0)
  | S754_infinity false => (2, 0, 0)
  | S754_finite true m e => (-1, - e, Zneg m)
  | S754_finite false m e => (1, e, Zpos m)
  end.

Definition lex_le (a b : Z * Z * Z) : Prop :=
  let '(a1, a2, a3) := a in
  let '(b1, b2, b3) := b in
  a1 < b1 \/ (a1 = b1 /\ (a2 < b2 \/ (a2 = b2 /\ a3 <= b3))).

Definition lex_lt (a b : Z * Z * Z) : Prop :=
  let '(a1, a2, a3) := a in
  let '(b1, b2, b3) := b in
  a1 < b1 \/ (a1 = b1 /\ (a2 < b2 \/ (a2 = b2 /\ a3 < b3))).

(** [m] is an extremum of [l] for the order [below]: an entry of [l] that
    every entry other than NaN is below. *)
Definition extremum_of (below : float -> float -> bool)
           (l : list float) (m : float) : Prop :=
  In m l /\ forall x, In x l -> is_nan x = true \/ below x m = true.

(** The maximum / minimum of a column in the sense of pandas. *)
Definition maximum_of : list float -> float -> Prop :=
  extremum_of (fun x m => fleb x m).
Definition minimum_of : list float -> float -> Prop :=
  extremum_of (fun x m => fleb m x).


(** A session of a given day and close, and five of them with the closes
    of the example. *)
Definition session (day close : Z) : PriceRecord :=
  {| Date := 86400 * day;
     Open := float_of_Z close;
     High := float_of_Z (close + 2);
     Low := float_of_Z (close - 3);
     Close := float_of_Z close;
     Volume := 1000 * close |}.

Definition sample_history : DataFrame :=
  [session 1 100; session 2 102; session 3 98; session 4 105; session 5 110].

(** The line printed after the request for the metadata: the company
    line, or the warning when the request failed. *)
Definition metadata_line (r : result Info) (ticker_symbol : string) : line :=
  match r with
  | Return info => company_line (company_name_of info ticker_symbol) ticker_symbol
  | Raise _ => warning_line ticker_symbol
  end.

(** What a run shows up to and including the request for the history,
    once both arguments are validated: banner, period, the request for
    the metadata and its line, the progress line and the request for the
    history. *)
Definition prelude (w : World) (t p : string) : trace :=
  [ Print (banner_line w t);
    Print (period_line p);
    GetInfo t;
    Print (metadata_line (yf_info w t) t);
    Print fetching_line;
    GetHistory t p ].

(** What a run shows after a non-empty history [h] came back. *)
Definition report (p : string) (h : DataFrame) (st : Summary) : trace :=
  ([ Print [Txt (nl ++ "📊 Datos obtenidos: ");
            Txt (str_of_int (Z.of_nat (List.length h)));
            Txt " registros"];
     Print [Txt "Período: ";
            Strftime (nth 0 (map Date h) 0) "%Y-%m-%d"; Txt " a ";
            Strftime (nth (List.length h - 1) (map Date h) 0) "%Y-%m-%d";
            Txt nl] ]
   ++ map Print (summary_lines st)
   ++ [ Print [Txt (nl ++ "📈 Historial de precios ("); Txt p; Txt "):"] ]
   ++ (if (20 <? List.length h)%nat
       then [Print truncation_notice; Print [Frame (tail 20 h)]]
       else [Print [Frame h]]))%list.

(** The end of a run whose history request raised [e]. *)
Definition failure (e : exn) : outcome unit * trace :=
  match exn_cls e with
  | ValueError => (SystemExit 1, [Print (validation_error_line e)])
  | Exception =>
      (SystemExit 1, Print (fetch_error_line e) :: map Print remediation_hints)
  | BaseException => (Raised e, [])
  end.

(** The outcome of a validated run is decided by the history request
    alone. *)
Definition history_outcome (r : result DataFrame) : outcome unit :=
  match r with
  | Return _ => Done tt
  | Raise e => fst (failure e)
  end.

(** Twenty-five sessions, numbered by their day, and a run that gets
    them. *)
Definition sessions_25 : DataFrame :=
  map (fun d => session d (100 + d))
      [1; 2; 3; 4; 5; 6; 7; 8; 9; 10; 11; 12; 13; 14; 15; 16; 17; 18; 19;
       20; 21; 22; 23; 24; 25].

Definition world_25 : World :=
  {| arg_ticker := "aapl"; arg_period := "1mo"; now := 0;
     yf_info := fun _ => Return {| longName := Some "Apple Inc.";
                                   shortName := Some "Apple" |};
     yf_history := fun _ _ => Return sessions_25 |}.


(** A run in which the metadata request times out. *)
Definition world_no_metadata : World :=
  {| arg_ticker := "aapl"; arg_period := "30"; now := 0;
     yf_info := fun _ => Raise (mkExn Exception "Read timed out.");
     yf_history := fun _ _ => Return sample_history |}.

(** A run in which the data source answers with something that is not
    JSON: the history request raises a [ValueError]
    ([json.JSONDecodeError]). *)
Definition world_bad_json : World :=
  {| arg_ticker := "aapl"; arg_period := "30"; now := 0;
     yf_info := fun _ => Return {| longName := Some "Apple Inc.";
                                   shortName := Some "Apple" |};
     yf_history := fun _ _ =>
       Raise (ValueError_ "Expecting value: line 1 column 1 (char 0)") |}.

(** No character of [s] is whitespace for the integer parser. *)
Definition spaceless (s : string) : bool :=
  all_chars (fun c => negb (Py_ISSPACE c)) s.

(** The requests a run made to the data source, in order. *)
Definition requests (t : trace) : trace :=
  filter (fun ev => match ev with Print _ => false | _ => true end) t.

(** The same run with other answers to the metadata request. *)
Definition with_info (w : World) (f : string -> result Info) : World :=
  {| arg_ticker := arg_ticker w; arg_period := arg_period w; now := now w;
     yf_info := f; yf_history := yf_history w |}.

(** Runs with a blank ticker, with a period that is no period, without a
    network, and interrupted from the keyboard during the history
    request. *)
Definition world_blank_ticker : World :=
  {| arg_ticker := "  "; arg_period := "nonsense"; now := 0;
     yf_info := fun _ => Return {| longName := None; shortName := None |};
     yf_history := fun _ _ => Return sample_history |}.

Definition world_bad_period : World :=
  {| arg_ticker := "msft"; arg_period := "7d"; now := 0;
     yf_info := fun _ => Return {| longName := None; shortName := None |};
     yf_history := fun _ _ => Return sample_history |}.

Definition world_offline : World :=
  {| arg_ticker := "msft"; arg_period := "1y"; now := 0;
     yf_info := fun _ => Raise (mkExn Exception "Max retries exceeded");
     yf_history := fun _ _ => Raise (mkExn Exception "Max retries exceeded") |}.

Definition world_interrupted : World :=
  {| arg_ticker := "msft"; arg_period := "1y"; now := 0;
     yf_info := fun _ => Return {| longName := None;
                                   shortName := Some "Microsoft" |};
     yf_history := fun _ _ => Raise (mkExn BaseException "KeyboardInterrupt") |}.

(** What a validated run shows after the request for the history, by
    the answer to it. *)
Definition epilogue (t p : string) (r : result DataFrame) : trace :=
  match r with
  | Raise e => snd (failure e)
  | Return [] => map Print (no_data_lines t p)
  | Return h =>
      match summary h with
      | Return st => report p h st
      | Raise _ => []
      end
  end.

(* ================================================================== *)
(** ** Characters and strings *)
(* ================================================================== *)

Section CharFacts.

(** Facts about one character are settled by running through the 256
    characters. *)
Ltac by_cases_on c :=
  destruct c as [[] [] [] [] [] [] [] []]; try reflexivity; try discriminate.

Lemma isspace_upper_char (c : ascii) :
  Py_UNICODE_ISSPACE (upper_char c) = Py_UNICODE_ISSPACE c.
Proof. by_cases_on c. Qed.

Lemma space_not_digit (c : ascii) :
  Py_ISSPACE c = true -> digit_value c = None /\ Ascii.eqb c "_" = false.
Proof. by_cases_on c; intros _; split; reflexivity. Qed.

Lemma literal_char_lower (c : ascii) :
  literal_char c = true -> lower_char c = c.
Proof. by_cases_on c. Qed.

End CharFacts.

Section StringFacts.

Variable p : ascii -> bool.

Lemma lskip_all (s : string) : all_chars p s = true -> lskip p s = "".
Proof.
  induction s as [|c s IH]; simpl; [reflexivity|].
  destruct (p c); simpl; [exact IH | discriminate].
Qed.

Lemma lskip_empty_all (s : string) : lskip p s = "" -> all_chars p s = true.
Proof.
  induction s as [|c s IH]; simpl; [reflexivity|].
  destruct (p c); simpl; [exact IH | discriminate].
Qed.

Lemma rskip_empty_iff (s : string) : rskip p s = "" <-> all_chars p s = true.
Proof.
  induction s as [|c s IH]; simpl; [tauto|].
  destruct (rskip p s) eqn:R.
  - destruct (p c); simpl.
    + split; intros _; [apply IH|]; reflexivity.
    + split; discriminate.
  - split; [discriminate|].
    intros H. apply andb_true_iff in H as [_ H].
    apply IH in H. discriminate.
Qed.

Lemma lskip_app (a b : string) :
  all_chars p a = true -> lskip p (a ++ b) = lskip p b.
Proof.
  induction a as [|c a IH]; simpl; [reflexivity|].
  destruct (p c); simpl; [exact IH | discriminate].
Qed.

Variable f : ascii -> ascii.
Hypothesis p_f : forall c, p (f c) = p c.

Lemma lskip_map_chars (s : string) :
  lskip p (map_chars f s) = map_chars f (lskip p s).
Proof.
  induction s as [|c s IH]; simpl; [reflexivity|].
  rewrite p_f. destruct (p c); [exact IH | reflexivity].
Qed.

Lemma rskip_map_chars (s : string) :
  rskip p (map_chars f s) = map_chars f (rskip p s).
Proof.
  induction s as [|c s IH]; simpl; [reflexivity|].
  rewrite IH, p_f.
  destruct (rskip p s); simpl; [destruct (p c)|]; reflexivity.
Qed.

End StringFacts.

(** Trimming and upper-casing commute: no character changes its being
    whitespace when upper-cased. *)
Lemma strip_upper (s : string) : strip (upper s) = upper (strip s).
Proof.
  unfold strip, upper.
  rewrite lskip_map_chars by apply isspace_upper_char.
  apply rskip_map_chars, isspace_upper_char.
Qed.

(** A string trims to nothing exactly when it is made of whitespace (the
    empty string included). *)
Lemma strip_empty_iff (s : string) :
  strip s = "" <-> all_chars Py_UNICODE_ISSPACE s = true.
Proof.
  unfold strip. rewrite rskip_empty_iff. split; intros H.
  - induction s as [|c s IH]; simpl in *; [reflexivity|].
    destruct (Py_UNICODE_ISSPACE c) eqn:E; simpl in *; [auto|].
    rewrite E in H. discriminate.
  - now rewrite lskip_all.
Qed.

Lemma length_zero_iff (s : string) : (String.length s =? 0)%nat = is_empty s.
Proof. destruct s; reflexivity. Qed.

Lemma is_empty_true (s : string) : is_empty s = true <-> s = "".
Proof. destruct s; simpl; split; congruence. Qed.

(* ================================================================== *)
(** ** [validate_ticker] *)
(* ================================================================== *)



(* ================================================================== *)
(** ** [int] and [str] *)
(* ================================================================== *)

Lemma all_chars_impl (p q : ascii -> bool) (s : string) :
  (forall c, p c = true -> q c = true) ->
  all_chars p s = true -> all_chars q s = true.
Proof.
  intros pq. induction s as [|c s IH]; simpl; [reflexivity|].
  intros H. apply andb_true_iff in H as [Hc Hs].
  now rewrite (pq _ Hc), IH.
Qed.

Lemma map_chars_id (f : ascii -> ascii) (p : ascii -> bool) (s : string) :
  (forall c, p c = true -> f c = c) ->
  all_chars p s = true -> map_chars f s = s.
Proof.
  intros pf. induction s as [|c s IH]; simpl; [reflexivity|].
  intros H. apply andb_true_iff in H as [Hc Hs].
  now rewrite (pf _ Hc), IH.
Qed.

Lemma space_literal (c : ascii) : Py_ISSPACE c = true -> literal_char c = true.
Proof. unfold literal_char. now intros ->. Qed.

Lemma digit_literal (c : ascii) (d : Z) :
  digit_value c = Some d -> literal_char c = true.
Proof. unfold literal_char. intros ->. now rewrite orb_true_r. Qed.

Lemma underscore_literal (c : ascii) :
  Ascii.eqb c "_" = true -> literal_char c = true.
Proof. unfold literal_char. intros ->. now rewrite !orb_true_r. Qed.

(** The digit loop only steps over digits and underscores. *)
Lemma long_from_string_base_literal (s : string) :
  forall prev acc n rest,
    long_from_string_base s prev acc = Some (n, rest) ->
    all_chars literal_char rest = true ->
    all_chars literal_char s = true.
Proof.
  induction s as [|c s IH]; intros prev acc n rest L R.
  - simpl in L. destruct prev; inversion L; subst; exact R.
  - simpl in L. destruct (digit_value c) as [d|] eqn:D.
    + simpl. rewrite (digit_literal _ _ D). simpl. exact (IH _ _ _ _ L R).
    + destruct (Ascii.eqb c "_") eqn:U.
      * simpl. rewrite (underscore_literal _ U). simpl.
        destruct prev; try discriminate. exact (IH _ _ _ _ L R).
      * destruct prev; try discriminate.
        inversion L; subst. exact R.
Qed.

Lemma lskip_literal (s : string) :
  all_chars literal_char (lskip Py_ISSPACE s) = true ->
  all_chars literal_char s = true.
Proof.
  induction s as [|c s IH]; simpl; [reflexivity|].
  destruct (Py_ISSPACE c) eqn:E; [|exact (fun H => H)].
  intros H. now rewrite (space_literal _ E), IH.
Qed.

Lemma split_sign_literal (s : string) :
  all_chars literal_char (snd (split_sign s)) = true ->
  all_chars literal_char s = true.
Proof.
  destruct s as [|c s]; simpl; [reflexivity|].
  assert (P : Ascii.eqb c "+" = true -> literal_char c = true).
  { unfold literal_char. intros ->. now rewrite !orb_true_r. }
  assert (M : Ascii.eqb c "-" = true -> literal_char c = true).
  { unfold literal_char. intros ->. now rewrite !orb_true_r. }
  destruct (Ascii.eqb c "+"); simpl.
  { intros ->. now rewrite P. }
  destruct (Ascii.eqb c "-"); simpl.
  { intros ->. now rewrite M. }
  exact (fun H => H).
Qed.

(** A string that [int] accepts is made of whitespace, digits, signs and
    underscores. *)
Lemma int_of_str_literal (s : string) (n : Z) :
  int_of_str s = Return n -> all_chars literal_char s = true.
Proof.
  unfold int_of_str. intros H.
  apply lskip_literal, split_sign_literal.
  destruct (split_sign (lskip Py_ISSPACE s)) as [negative s2]. simpl.
  destruct (long_from_string_base s2 SeenNothing 0) as [[m rest]|] eqn:L;
    [|discriminate].
  destruct (is_empty (lskip Py_ISSPACE rest)) eqn:E; [|discriminate].
  apply (long_from_string_base_literal _ _ _ _ _ L).
  apply is_empty_true, lskip_empty_all in E.
  exact (all_chars_impl _ _ _ space_literal E).
Qed.

(** The only exception of [int] is the invalid-literal [ValueError]. *)
Lemma int_of_str_raises (s : string) (e : exn) :
  int_of_str s = Raise e -> e = invalid_literal s.
Proof.
  unfold int_of_str.
  destruct (split_sign (lskip Py_ISSPACE s)) as [negative s2].
  destruct (long_from_string_base s2 SeenNothing 0) as [[m rest]|];
    [destruct (is_empty (lskip Py_ISSPACE rest))|]; congruence.
Qed.

(** *** [int(str(n)) = n], also with whitespace around the numeral *)

Lemma uacc_of_lu (u : Decimal.uint) :
  forall d, Z.of_N (DecimalPos.Unsigned.of_lu (Decimal.revapp u d))
            = uacc (Z.of_N (DecimalPos.Unsigned.of_lu d)) u.
Proof.
  induction u; intros d; cbn [Decimal.revapp uacc];
    [reflexivity | rewrite IHu; f_equal; cbn [DecimalPos.Unsigned.of_lu]; lia ..].
Qed.

Lemma uacc_to_uint (q : positive) : uacc 0 (Pos.to_uint q) = Zpos q.
Proof.
  change 0 with (Z.of_N (DecimalPos.Unsigned.of_lu Decimal.Nil)).
  rewrite <- uacc_of_lu.
  change (Decimal.revapp (Pos.to_uint q) Decimal.Nil)
    with (Decimal.rev (Pos.to_uint q)).
  now rewrite <- DecimalPos.Unsigned.of_uint_alt, DecimalPos.Unsigned.of_to.
Qed.

Lemma digits_run (u : Decimal.uint) :
  forall acc rest,
    long_from_string_base (NilEmpty.string_of_uint u ++ rest) SeenDigit acc
    = long_from_string_base rest SeenDigit (uacc acc u).
Proof.
  induction u; intros acc rest; simpl; [destruct rest; reflexivity | apply IHu ..].
Qed.

Lemma digits_start (u : Decimal.uint) (rest : string) :
  u <> Decimal.Nil ->
  long_from_string_base (NilEmpty.string_of_uint u ++ rest) SeenNothing 0
  = long_from_string_base rest SeenDigit (uacc 0 u).
Proof.
  destruct u; intros H; [now elim H | simpl; apply digits_run ..].
Qed.

Lemma digits_stop (ws : string) (n : Z) :
  all_chars Py_ISSPACE ws = true ->
  long_from_string_base ws SeenDigit n = Some (n, ws).
Proof.
  destruct ws as [|c ws]; simpl; [reflexivity|].
  intros H. apply andb_true_iff in H as [H _].
  destruct (space_not_digit _ H) as [-> ->]. reflexivity.
Qed.

(** A numeral of at least one digit starts with neither whitespace nor a
    sign. *)
Lemma numeral_head (u : Decimal.uint) (rest : string) :
  u <> Decimal.Nil ->
  split_sign (lskip Py_ISSPACE (NilEmpty.string_of_uint u ++ rest))
  = (false, NilEmpty.string_of_uint u ++ rest).
Proof.
  destruct u; intros H; [now elim H | reflexivity ..].
Qed.

Lemma int_of_str_padded (ws1 ws2 : string) (n : Z) :
  all_chars Py_ISSPACE ws1 = true ->
  all_chars Py_ISSPACE ws2 = true ->
  int_of_str (ws1 ++ str_of_int n ++ ws2) = Return n.
Proof.
  intros H1 H2. unfold int_of_str. rewrite (lskip_app _ _ _ H1).
  assert (N0 : forall q, Pos.to_uint q <> Decimal.Nil)
    by apply DecimalPos.Unsigned.to_uint_nonnil.
  assert (E : is_empty (lskip Py_ISSPACE ws2) = true)
    by now rewrite lskip_all.
  destruct n as [|q|q]; unfold str_of_int; simpl Z.to_int;
    unfold NilZero.string_of_int, NilZero.string_of_uint.
  - simpl. rewrite (digits_stop _ _ H2), E. reflexivity.
  - pose proof (N0 q) as Hq. destruct (Pos.to_uint q) eqn:U;
      [now elim Hq | rewrite <- U in *; clear U ..];
      rewrite numeral_head, digits_start, (digits_stop _ _ H2), E,
        uacc_to_uint by assumption; reflexivity.
  - pose proof (N0 q) as Hq. destruct (Pos.to_uint q) eqn:U;
      [now elim Hq | rewrite <- U in *; clear U ..];
      change (split_sign _) with (true, NilEmpty.string_of_uint (Pos.to_uint q) ++ ws2);
      cbv iota beta;
      rewrite digits_start, (digits_stop _ _ H2), E,
        uacc_to_uint by assumption; reflexivity.
Qed.

(** [int(str(n)) = n] *)
Lemma int_of_str_of_int (n : Z) : int_of_str (str_of_int n) = Return n.
Proof.
  rewrite <- (int_of_str_padded "" "" n) by reflexivity.
  f_equal. simpl. induction (str_of_int n); simpl; congruence.
Qed.

(* ================================================================== *)
(** ** [validate_period] *)
(* ================================================================== *)

(** A string that matches a predefined period, whatever its case, comes
    back in lower case. *)
Lemma validate_period_tag_branch (s : string) :
  str_in (lower s) predefined_periods = true ->
  validate_period s = Return (lower s).
Proof. unfold validate_period. now intros ->. Qed.

(** The day-count branch, with the [try]/[except] of the source resolved:
    the range errors pass through the handler unchanged, the error of
    [int] is replaced. *)
Lemma validate_period_day_branch (s : string) :
  str_in (lower s) predefined_periods = false ->
  validate_period s =
  match int_of_str s with
  | Return days =>
      if (days <? 1)%Z then Raise (ValueError_ msg_days_too_small)
      else if (days >? 3650)%Z then Raise (ValueError_ msg_days_too_large)
      else Return (str_of_int days ++ "d")
  | Raise _ => Raise (ValueError_ (msg_invalid_period s))
  end.
Proof.
  unfold validate_period. intros ->.
  destruct (int_of_str s) as [days|e] eqn:E; simpl.
  - destruct (days <? 1)%Z; [reflexivity|].
    destruct (days >? 3650)%Z; reflexivity.
  - apply int_of_str_raises in E. subst e. reflexivity.
Qed.

(** No predefined period is an integer literal. *)
Lemma int_literal_not_predefined (s : string) (n : Z) :
  int_of_str s = Return n -> str_in (lower s) predefined_periods = false.
Proof.
  intros H. pose proof (int_of_str_literal _ _ H) as L.
  unfold lower. rewrite (map_chars_id _ _ _ literal_char_lower L).
  destruct (str_in s predefined_periods) eqn:E; [|reflexivity].
  unfold str_in, predefined_periods in E. simpl in E.
  repeat match type of E with
         | (String.eqb s ?t || _) = true =>
             destruct (String.eqb_spec s t) as [->|_];
             [discriminate H | simpl in E]
         end.
  discriminate E.
Qed.

(** C1, as the code has it.  Matching a predefined period ignores case
    and yields the lower-case tag: so for ["1d"], ["5D"] and ["MAX"].  The
    argument is not trimmed: [" 1mo"], with its leading space, matches
    no tag, is not an integer either, and is rejected with the
    validation error that lists the tags. *)
Theorem validate_period_predefined_inputs :
  validate_period "1d" = Return "1d" /\
  validate_period "5D" = Return "5d" /\
  validate_period "MAX" = Return "max" /\
  validate_period " 1mo" = Raise (ValueError_ (msg_invalid_period " 1mo")) /\
  (forall s, In (lower s) predefined_periods ->
             validate_period s = Return (lower s)).
Proof.
  repeat split; try reflexivity.
  intros s H. apply validate_period_tag_branch.
  unfold str_in. apply existsb_exists. exists (lower s).
  split; [exact H | apply String.eqb_refl].
Qed.

Lemma validate_period_predefined_inputs_witness :
  validate_period "6Mo" = Return "6mo".
Proof.
  apply (proj2 (proj2 (proj2 (proj2 validate_period_predefined_inputs)))
           "6Mo").
  simpl. tauto.
Defined.

(** C1, as stated, fails on its third input: [" 1mo"] does not come back
    as ["1mo"]. *)
Lemma validate_period_untrimmed_tag :
  validate_period " 1mo" <> Return "1mo".
Proof. discriminate. Qed.


Lemma days_in_range (n : Z) :
  1 <= n <= 3650 -> (n <? 1)%Z = false /\ (n >? 3650)%Z = false.
Proof.
  intros R. split; [apply Z.ltb_ge; lia|].
  rewrite Z.gtb_ltb. apply Z.ltb_ge. lia.
Qed.




(** C10. Whitespace around a day count is tolerated: for every [n] with
    [1 <= n <= 3650], written in decimal with any whitespace of the
    integer parser (blank, TAB, LF, VT, FF, CR) before and after it,
    [validate_period] returns the numeral of [n] followed by [d] -- [int]
    skips the whitespace, although the comparison with the predefined
    tags does not. *)
Theorem validate_period_padded_days (ws1 ws2 : string) (n : Z) :
  all_chars Py_ISSPACE ws1 = true ->
  all_chars Py_ISSPACE ws2 = true ->
  1 <= n <= 3650 ->
  validate_period (ws1 ++ str_of_int n ++ ws2) = Return (str_of_int n ++ "d").
Proof.
  intros H1 H2 R.
  pose proof (int_of_str_padded ws1 ws2 n H1 H2) as I.
  rewrite (validate_period_day_branch _ (int_literal_not_predefined _ _ I)), I.
  now destruct (days_in_range n R) as [-> ->].
Qed.

Lemma validate_period_padded_days_witness :
  validate_period " 30 " = Return "30d".
Proof.
  apply (validate_period_padded_days " " " " 30); [reflexivity | reflexivity | lia].
Defined.

(* ================================================================== *)
(** ** Order of binary64 numbers *)
(* ================================================================== *)

Ltac order_cases :=
  cbn [SFcompare key lex_le lex_lt];
  rewrite ?Pos.compare_cont_spec; cbn [Pos.switch_Eq];
  repeat match goal with
         | |- context [Z.compare ?a ?b] => destruct (Z.compare_spec a b)
         | |- context [Pos.compare ?a ?b] => destruct (Pos.compare_spec a b)
         end;
  cbn; split; intros; try discriminate; try reflexivity; try lia.

Lemma fleb_key (x y : float) :
  is_nan x = false -> is_nan y = false ->
  fleb x y = true <-> lex_le (key x) (key y).
Proof.
  unfold fleb, SFleb. intros Hx Hy.
  destruct x as [[]|[]| |[] m1 e1], y as [[]|[]| |[] m2 e2];
    try discriminate; order_cases.
Qed.

Lemma fltb_key (x y : float) :
  is_nan x = false -> is_nan y = false ->
  fltb x y = true <-> lex_lt (key x) (key y).
Proof.
  unfold fltb, SFltb. intros Hx Hy.
  destruct x as [[]|[]| |[] m1 e1], y as [[]|[]| |[] m2 e2];
    try discriminate; order_cases.
Qed.

Lemma fleb_refl (x : float) : is_nan x = false -> fleb x x = true.
Proof.
  intros H. apply fleb_key; trivial.
  destruct (key x) as [[a b] c]. cbn. lia.
Qed.

Lemma fleb_trans (x y z : float) :
  is_nan x = false -> is_nan y = false -> is_nan z = false ->
  fleb x y = true -> fleb y z = true -> fleb x z = true.
Proof.
  intros Hx Hy Hz. rewrite !fleb_key by assumption.
  destruct (key x) as [[a1 a2] a3], (key y) as [[b1 b2] b3],
           (key z) as [[c1 c2] c3]. cbn. lia.
Qed.

Lemma fltb_fleb (x y : float) :
  is_nan x = false -> is_nan y = false ->
  fltb x y = true -> fleb x y = true.
Proof.
  intros Hx Hy. rewrite fleb_key, fltb_key by assumption.
  destruct (key x) as [[a1 a2] a3], (key y) as [[b1 b2] b3]. cbn. lia.
Qed.

Lemma fltb_false_fleb (x y : float) :
  is_nan x = false -> is_nan y = false ->
  fltb x y = false -> fleb y x = true.
Proof.
  intros Hx Hy F. apply fleb_key; trivial.
  assert (N : ~ lex_lt (key x) (key y)).
  { intros L. apply fltb_key in L; trivial. congruence. }
  destruct (key x) as [[a1 a2] a3], (key y) as [[b1 b2] b3].
  cbn in *. lia.
Qed.

(* ================================================================== *)
(** ** Extrema of a column *)
(* ================================================================== *)

Section Extremum.

Variable better below : float -> float -> bool.

Hypothesis below_refl : forall x, is_nan x = false -> below x x = true.
Hypothesis below_trans : forall x y z,
  is_nan x = false -> is_nan y = false -> is_nan z = false ->
  below x y = true -> below y z = true -> below x z = true.
Hypothesis better_below : forall y m,
  is_nan y = false -> is_nan m = false ->
  better y m = true -> below m y = true.
Hypothesis worse_below : forall y m,
  is_nan y = false -> is_nan m = false ->
  better y m = false -> below y m = true.

Lemma fold_extremum (xs : list float) :
  forall x,
    is_nan x = false ->
    (forall y, In y xs -> is_nan y = false) ->
    let m := fold_left (keep_better better) xs x in
    is_nan m = false /\ In m (x :: xs) /\ below x m = true /\
    (forall y, In y xs -> below y m = true).
Proof.
  induction xs as [|y ys IH]; intros x Hx Hxs; cbn zeta.
  - simpl. repeat split; auto.
  - assert (Hy : is_nan y = false) by (apply Hxs; now left).
    assert (Hys : forall z, In z ys -> is_nan z = false)
      by (intros z Hz; apply Hxs; now right).
    assert (Hs : is_nan (keep_better better x y) = false)
      by (unfold keep_better; destruct (better y x); assumption).
    destruct (IH (keep_better better x y) Hs Hys) as (Nm & Im & Bm & Bys).
    cbn [fold_left].
    set (m := fold_left (keep_better better) ys (keep_better better x y)) in *.
    assert (Bx : below x (keep_better better x y) = true /\
                 below y (keep_better better x y) = true).
    { unfold keep_better. destruct (better y x) eqn:B; split; auto. }
    destruct Bx as [Bx By].
    repeat split.
    + exact Nm.
    + destruct Im as [Im|Im]; [|now right; right].
      rewrite <- Im. unfold keep_better. destruct (better y x); simpl; auto.
    + exact (below_trans _ _ _ Hx Hs Nm Bx Bm).
    + intros z [<-|Hz]; [|auto].
      exact (below_trans _ _ _ Hy Hs Nm By Bm).
Qed.

Lemma pick_extremum (l : list float) :
  l <> [] -> extremum_of below l (pick better l).
Proof.
  intros Hl. unfold pick, extremum_of.
  set (keep := fun x => negb (is_nan x)).
  assert (K : forall x, In x (filter keep l) <-> In x l /\ is_nan x = false).
  { intros x. rewrite filter_In. unfold keep.
    now destruct (is_nan x); simpl; intuition. }
  destruct (filter keep l) as [|x xs] eqn:F.
  - assert (A : forall x, In x l -> is_nan x = true).
    { intros x Hx. destruct (is_nan x) eqn:E; [reflexivity|].
      now elim (proj2 (K x) (conj Hx E)). }
    split; [|auto].
    destruct l as [|x l]; [now elim Hl|].
    left. specialize (A x (or_introl eq_refl)). now destruct x.
  - destruct (fold_extremum xs x) as (Nm & Im & Bm & Bys).
    + apply (K x). now left.
    + intros y Hy. apply (K y). now right.
    + split; [now apply (K _)|].
      intros y Hy. destruct (is_nan y) eqn:E; [now left | right].
      destruct (proj2 (K y) (conj Hy E)) as [<-|Hy']; auto.
Qed.

End Extremum.

Lemma Series_max_maximum (l : list float) :
  l <> [] -> maximum_of l (Series_max l).
Proof.
  apply pick_extremum.
  - exact fleb_refl.
  - exact fleb_trans.
  - intros y m Hy Hm. now apply fltb_fleb.
  - intros y m Hy Hm. now apply fltb_false_fleb.
Qed.

Lemma Series_min_minimum (l : list float) :
  l <> [] -> minimum_of l (Series_min l).
Proof.
  apply (pick_extremum _ (fun x m => fleb m x)).
  - exact fleb_refl.
  - intros x y z Hx Hy Hz A B. exact (fleb_trans _ _ _ Hz Hy Hx B A).
  - intros y m Hy Hm. now apply fltb_fleb.
  - intros y m Hy Hm. now apply fltb_false_fleb.
Qed.

(* ================================================================== *)
(** ** Summary statistics *)
(* ================================================================== *)


Lemma iloc_last_nth {A} (l : list A) (d : A) :
  l <> [] -> iloc_last l = Return (nth (List.length l - 1) l d).
Proof.
  induction l as [|x l IH]; intros H; [now elim H|].
  destruct l as [|y l]; [reflexivity|].
  change (iloc_last (x :: y :: l)) with (iloc_last (y :: l)).
  rewrite IH by discriminate. simpl. now rewrite Nat.sub_0_r.
Qed.




(* ================================================================== *)
(** ** The run *)
(* ================================================================== *)

Lemma print_all_trace (ls : list line) (t : trace) :
  print_all ls t = (Done tt, (t ++ map Print ls)%list).
Proof.
  revert t. induction ls as [|l ls IH]; intros t; simpl.
  - unfold ret. now rewrite app_nil_r.
  - unfold seq, print. rewrite IH. now rewrite <- app_assoc.
Qed.

(** The summary of a series that is not empty is computed. *)
Lemma summary_returns (r : PriceRecord) (rest : DataFrame) :
  exists st, summary (r :: rest) = Return st.
Proof.
  unfold summary.
  rewrite (iloc_last_nth (map Close (r :: rest)) S754_nan) by discriminate.
  cbn [bind map iloc_first]. eexists. reflexivity.
Qed.

(** Unfold a run up to the answers of the data source. *)
Ltac run_to_answers Ht Hp :=
  unfold run, main, try_clauses, main_body;
  unfold seq, parse_arguments, ret, try_bare, stock_info, stock_history, print;
  cbn [fst snd]; rewrite Ht; cbn [lift]; rewrite Hp; cbn [lift app].

Lemma run_history_raises (w : World) (t p : string) (e : exn) :
  validate_ticker (arg_ticker w) = Return t ->
  validate_period (arg_period w) = Return p ->
  yf_history w t p = Raise e ->
  run w = (fst (failure e), (prelude w t p ++ snd (failure e))%list).
Proof.
  intros Ht Hp Hh. run_to_answers Ht Hp.
  unfold failure, prelude.
  destruct (yf_info w t) as [info|e']; cbn [lift app]; rewrite Hh;
    cbn [lift app metadata_line];
    destruct e as [[] m]; reflexivity.
Qed.

Lemma run_history_empty (w : World) (t p : string) :
  validate_ticker (arg_ticker w) = Return t ->
  validate_period (arg_period w) = Return p ->
  yf_history w t p = Return [] ->
  run w = (Done tt, (prelude w t p ++ map Print (no_data_lines t p))%list).
Proof.
  intros Ht Hp Hh. run_to_answers Ht Hp.
  unfold prelude.
  destruct (yf_info w t) as [info|e']; cbn [lift app]; rewrite Hh;
    reflexivity.
Qed.

Lemma run_history_rows (w : World) (t p : string) (h : DataFrame) :
  validate_ticker (arg_ticker w) = Return t ->
  validate_period (arg_period w) = Return p ->
  yf_history w t p = Return h ->
  h <> [] ->
  exists st, summary h = Return st /\
             run w = (Done tt, (prelude w t p ++ report p h st)%list).
Proof.
  intros Ht Hp Hh Hne.
  destruct h as [|r rest]; [now elim Hne|].
  destruct (summary_returns r rest) as (st & S). exists st. split; [exact S|].
  run_to_answers Ht Hp. unfold prelude, report.
  pose proof (iloc_last_nth (map Date (r :: rest)) 0) as L.
  rewrite length_map in L.
  destruct (yf_info w t) as [info|e']; cbn [lift app]; rewrite Hh;
    cbn [lift app empty]; change (iloc_first (map Date (r :: rest)))
      with (Return (nth 0 (map Date (r :: rest)) 0));
    cbn [lift]; rewrite L by discriminate; cbn [lift]; rewrite S;
    cbn [lift]; rewrite print_all_trace;
    destruct (20 <? Datatypes.length (r :: rest))%nat; reflexivity.
Qed.

(** *** What is printed *)

Lemma printed_app (a b : trace) :
  printed (a ++ b)%list = (printed a ++ printed b)%list.
Proof. apply flat_map_app. Qed.



Lemma printed_prelude (w : World) (t p : string) :
  printed (prelude w t p)
  = [banner_line w t; period_line p; metadata_line (yf_info w t) t;
     fetching_line].
Proof. reflexivity. Qed.



(** Settle [In l ls] or its negation for lines spelled out. *)
Ltac no_such_line H :=
  cbv beta delta [company_line truncation_notice validation_error_line
                  fetch_error_line] in H;
  cbn in H; repeat (destruct H as [H|H]; [discriminate H|]); exact H.




(** *** The table *)



(** *** An empty history *)



(** *** A failed metadata request *)

Lemma run_outcome (w : World) (t p : string) :
  validate_ticker (arg_ticker w) = Return t ->
  validate_period (arg_period w) = Return p ->
  fst (run w) = history_outcome (yf_history w t p).
Proof.
  intros Ht Hp. destruct (yf_history w t p) as [[|r rest]|e] eqn:Hh.
  - now rewrite (run_history_empty w t p Ht Hp Hh).
  - destruct (run_history_rows w t p _ Ht Hp Hh) as (st & _ & ->);
      [discriminate | reflexivity].
  - now rewrite (run_history_raises w t p e Ht Hp Hh).
Qed.

(** After the prelude, a validated run prints no line of six pieces. *)
Lemma company_line_after_prelude (w : World) (t p name : string) (rest : trace) :
  validate_ticker (arg_ticker w) = Return t ->
  validate_period (arg_period w) = Return p ->
  snd (run w) = (prelude w t p ++ rest)%list ->
  ~ In (company_line name t) (printed rest).
Proof.
  intros Ht Hp R H.
  destruct (yf_history w t p) as [[|r rs]|e] eqn:Hh.
  - rewrite (run_history_empty w t p Ht Hp Hh) in R.
    apply app_inv_head in R. subst rest. no_such_line H.
  - destruct (run_history_rows w t p _ Ht Hp Hh) as (st & _ & R');
      [discriminate|].
    rewrite R' in R. apply app_inv_head in R. subst rest.
    unfold report in H.
    destruct (20 <? List.length (r :: rs))%nat; no_such_line H.
  - rewrite (run_history_raises w t p e Ht Hp Hh) in R.
    apply app_inv_head in R. subst rest.
    unfold failure in H. destruct (exn_cls e); no_such_line H.
Qed.

(** C4, as the code has it.  When the request for the metadata fails,
    with whatever exception, the run prints the warning that names the
    ticker, goes on to the progress line and to the request for the
    history, and ends as that request decides: the exception of the
    metadata request is not the outcome.  No company line is printed: the
    warning stands in its place (the ticker stands in for the company name
    only when the metadata arrive without a long or short name). *)
Theorem metadata_failure_only_warns (w : World) (t p : string) (e : exn) :
  validate_ticker (arg_ticker w) = Return t ->
  validate_period (arg_period w) = Return p ->
  yf_info w t = Raise e ->
  (exists rest,
     snd (run w) =
     ([ Print (banner_line w t); Print (period_line p); GetInfo t;
        Print (warning_line t); Print fetching_line; GetHistory t p ]
      ++ rest)%list) /\
  fst (run w) = history_outcome (yf_history w t p) /\
  (forall name, ~ In (company_line name t) (printed (snd (run w)))).
Proof.
  intros Ht Hp Hi.
  assert (P : prelude w t p =
              [ Print (banner_line w t); Print (period_line p); GetInfo t;
                Print (warning_line t); Print fetching_line; GetHistory t p ])
    by (unfold prelude; now rewrite Hi).
  assert (R : exists rest, snd (run w) = (prelude w t p ++ rest)%list).
  { destruct (yf_history w t p) as [[|r rs]|e'] eqn:Hh.
    - rewrite (run_history_empty w t p Ht Hp Hh). eexists. reflexivity.
    - destruct (run_history_rows w t p _ Ht Hp Hh) as (st & _ & ->);
        [discriminate | eexists; reflexivity].
    - rewrite (run_history_raises w t p e' Ht Hp Hh). eexists. reflexivity. }
  destruct R as [rest R].
  split; [exists rest; now rewrite <- P|].
  split; [now apply run_outcome|].
  intros name H. rewrite R, printed_app in H.
  apply in_app_or in H as [H|H].
  - rewrite printed_prelude, Hi in H. no_such_line H.
  - exact (company_line_after_prelude w t p name rest Ht Hp R H).
Qed.

Lemma metadata_failure_only_warns_witness :
  fst (run world_no_metadata) = Done tt /\
  ~ In (company_line "AAPL" "AAPL") (printed (snd (run world_no_metadata))).
Proof.
  destruct (metadata_failure_only_warns world_no_metadata "AAPL" "30d"
              (mkExn Exception "Read timed out.") eq_refl eq_refl eq_refl)
    as (_ & O & C).
  split; [exact O | exact (C "AAPL")].
Defined.

(** C4, as stated, fails: when the metadata request fails, the ticker is
    not shown in the place of the company name -- the company line is
    missing. *)
Lemma metadata_failure_shows_no_company_line :
  yf_info world_no_metadata "AAPL" = Raise (mkExn Exception "Read timed out.")
  /\ ~ In (company_line "AAPL" "AAPL")
          (printed (snd (run world_no_metadata))).
Proof.
  split; [reflexivity|]. intros H. vm_compute in H.
  repeat (destruct H as [H|H]; [discriminate H|]). exact H.
Qed.

(** *** A failed history request *)

(** When the history request raises an exception that is not a
    [ValueError], the run prints the error, the four hints, and exits with
    status 1, after one request. *)
Lemma history_failure_hints (w : World) (t p : string) (e : exn) :
  validate_ticker (arg_ticker w) = Return t ->
  validate_period (arg_period w) = Return p ->
  yf_history w t p = Raise e ->
  exn_cls e = Exception ->
  exit_status (fst (run w)) = Some 1 /\
  snd (run w) = (prelude w t p
                 ++ Print (fetch_error_line e) :: map Print remediation_hints)%list
  /\ history_calls (snd (run w)) = 1%nat.
Proof.
  intros Ht Hp Hh Hc. rewrite (run_history_raises w t p e Ht Hp Hh).
  unfold failure. rewrite Hc. repeat split.
Qed.

(** C6 at a failing history request of class [ValueError]: the run exits
    with status 1 after one request, but the failure is reported as a
    validation error and none of the remediation hints is printed. *)
Theorem history_ValueError_gets_no_hints :
  exit_status (fst (run world_bad_json)) = Some 1 /\
  history_calls (snd (run world_bad_json)) = 1%nat /\
  snd (run world_bad_json) =
    (prelude world_bad_json "AAPL" "30d"
     ++ [Print (validation_error_line
                  (ValueError_ "Expecting value: line 1 column 1 (char 0)"))])%list /\
  (forall l, In l remediation_hints ->
             ~ In l (printed (snd (run world_bad_json)))).
Proof.
  split; [reflexivity|]. split; [reflexivity|]. split; [reflexivity|].
  intros l Hl H. vm_compute in H. vm_compute in Hl.
  repeat (destruct Hl as [<-|Hl];
          [repeat (destruct H as [H|H]; [discriminate H|]); exact H|]).
  exact Hl.
Qed.

(* ================================================================== *)
(** ** More on [validate_ticker] *)
(* ================================================================== *)

Section MoreCharFacts.

Ltac by_cases_on c :=
  destruct c as [[] [] [] [] [] [] [] []]; try reflexivity; try discriminate.

Lemma isspace_lower_char (c : ascii) :
  Py_UNICODE_ISSPACE (lower_char c) = Py_UNICODE_ISSPACE c.
Proof. by_cases_on c. Qed.

Lemma Py_ISSPACE_lower_char (c : ascii) :
  Py_ISSPACE (lower_char c) = Py_ISSPACE c.
Proof. by_cases_on c. Qed.


Lemma upper_lower_char (c : ascii) : upper_char (lower_char c) = upper_char c.
Proof. by_cases_on c. Qed.

Lemma lower_char_idem (c : ascii) : lower_char (lower_char c) = lower_char c.
Proof. by_cases_on c. Qed.

End MoreCharFacts.

Lemma map_chars_compose (f g h : ascii -> ascii) (s : string) :
  (forall c, f (g c) = h c) ->
  map_chars f (map_chars g s) = map_chars h s.
Proof.
  intros E. induction s as [|c s IH]; simpl; [reflexivity|].
  now rewrite E, IH.
Qed.

Lemma map_chars_empty (f : ascii -> ascii) (s : string) :
  is_empty (map_chars f s) = is_empty s.
Proof. now destruct s. Qed.

Lemma map_chars_app (f : ascii -> ascii) (a b : string) :
  map_chars f (a ++ b) = map_chars f a ++ map_chars f b.
Proof. induction a as [|c a IH]; simpl; congruence. Qed.

Lemma all_chars_app (p : ascii -> bool) (a b : string) :
  all_chars p (a ++ b) = all_chars p a && all_chars p b.
Proof.
  induction a as [|c a IH]; simpl; [reflexivity|].
  now rewrite IH, andb_assoc.
Qed.

Section TrimFacts.

Variable p : ascii -> bool.






Lemma rskip_app (a ws : string) :
  all_chars p ws = true -> rskip p (a ++ ws) = rskip p a.
Proof.
  intros W. induction a as [|c a IH]; simpl.
  - now apply rskip_empty_iff.
  - now rewrite IH.
Qed.

Lemma rskip_lskip_app (s ws : string) :
  all_chars p ws = true ->
  rskip p (lskip p (s ++ ws)) = rskip p (lskip p s).
Proof.
  intros W. induction s as [|c s IH]; simpl.
  - now rewrite lskip_all.
  - destruct (p c); [exact IH|].
    change (String c (s ++ ws)) with (String c s ++ ws).
    now apply rskip_app.
Qed.

End TrimFacts.


Lemma strip_padded (ws1 ws2 s : string) :
  all_chars Py_UNICODE_ISSPACE ws1 = true ->
  all_chars Py_UNICODE_ISSPACE ws2 = true ->
  strip (ws1 ++ s ++ ws2) = strip s.
Proof.
  intros W1 W2. unfold strip.
  rewrite (lskip_app _ _ _ W1). now apply rskip_lskip_app.
Qed.

Lemma strip_lower (s : string) : strip (lower s) = lower (strip s).
Proof.
  unfold strip, lower.
  rewrite lskip_map_chars by apply isspace_lower_char.
  apply rskip_map_chars, isspace_lower_char.
Qed.

(** The test of [validate_ticker] comes down to the trimmed string being
    empty. *)
Lemma validate_ticker_alt (ticker : string) :
  validate_ticker ticker =
  if is_empty (strip ticker) then Raise (ValueError_ msg_empty_ticker)
  else Return (upper (strip ticker)).
Proof.
  unfold validate_ticker. rewrite length_zero_iff, strip_upper.
  destruct ticker; reflexivity.
Qed.



(** [validate_ticker] does not tell apart inputs that differ in
    surrounding whitespace or in the case of their letters. *)
Theorem validate_ticker_ignores_case_and_padding (ws1 ws2 s s' : string) :
  all_chars Py_UNICODE_ISSPACE ws1 = true ->
  all_chars Py_UNICODE_ISSPACE ws2 = true ->
  lower s' = lower s ->
  validate_ticker (ws1 ++ s' ++ ws2) = validate_ticker s.
Proof.
  intros W1 W2 L. rewrite !validate_ticker_alt, (strip_padded _ _ _ W1 W2).
  assert (E : is_empty (strip s') = is_empty (strip s)).
  { rewrite <- (map_chars_empty lower_char (strip s')),
      <- (map_chars_empty lower_char (strip s)).
    fold (lower (strip s')) (lower (strip s)).
    now rewrite <- !strip_lower, L. }
  assert (U : upper (strip s') = upper (strip s)).
  { rewrite <- !strip_upper. f_equal. unfold upper.
    rewrite <- (map_chars_compose upper_char lower_char upper_char s')
      by apply upper_lower_char.
    rewrite <- (map_chars_compose upper_char lower_char upper_char s)
      by apply upper_lower_char.
    fold (lower s') (lower s). now rewrite L. }
  now rewrite E, U.
Qed.

Lemma validate_ticker_ignores_case_and_padding_witness :
  validate_ticker "  Googl " = validate_ticker "gOOGL".
Proof.
  apply (validate_ticker_ignores_case_and_padding "  " " " "gOOGL" "Googl");
    reflexivity.
Defined.

(* ================================================================== *)
(** ** More on [validate_period] *)
(* ================================================================== *)

Lemma str_in_In (x : string) (l : list string) :
  str_in x l = true <-> In x l.
Proof.
  unfold str_in. rewrite existsb_exists. split.
  - intros (y & Hy & E). apply String.eqb_eq in E. now subst.
  - intros H. exists x. split; [exact H | apply String.eqb_refl].
Qed.

Lemma predefined_lower (t : string) :
  In t predefined_periods -> lower t = t.
Proof.
  intros H. simpl in H.
  repeat (destruct H as [<-|H]; [reflexivity|]). now elim H.
Qed.

Lemma predefined_spaceless (t : string) :
  In t predefined_periods -> spaceless t = true.
Proof.
  intros H. simpl in H.
  repeat (destruct H as [<-|H]; [reflexivity|]). now elim H.
Qed.

(** Every exception of [validate_period] is a [ValueError]. *)
Lemma validate_period_raises (s : string) (e : exn) :
  validate_period s = Raise e -> exn_cls e = ValueError.
Proof.
  destruct (str_in (lower s) predefined_periods) eqn:P.
  - now rewrite (validate_period_tag_branch _ P).
  - rewrite (validate_period_day_branch _ P).
    destruct (int_of_str s) as [days|e']; [|now intros [= <-]].
    destruct (days <? 1)%Z; [now intros [= <-]|].
    destruct (days >? 3650)%Z; [now intros [= <-] | discriminate].
Qed.

Lemma validate_period_returns (s p : string) :
  validate_period s = Return p ->
  In p predefined_periods \/
  exists n, 1 <= n <= 3650 /\ p = str_of_int n ++ "d".
Proof.
  destruct (str_in (lower s) predefined_periods) eqn:P.
  - rewrite (validate_period_tag_branch _ P). intros [= <-].
    left. now apply str_in_In.
  - rewrite (validate_period_day_branch _ P).
    destruct (int_of_str s) as [days|e]; [|discriminate].
    destruct (Z.ltb_spec days 1); [discriminate|].
    destruct (days >? 3650)%Z eqn:G; [discriminate|].
    intros [= <-]. right. exists days. split; [|reflexivity].
    rewrite Z.gtb_ltb in G. apply Z.ltb_ge in G. lia.
Qed.

(** What [validate_period] returns is a predefined tag or a day count
    between 1 and 3650 followed by [d]: nothing else reaches the data
    source. *)
Theorem validate_period_range (s p : string) :
  validate_period s = Return p ->
  In p predefined_periods \/
  exists n, 1 <= n <= 3650 /\ p = str_of_int n ++ "d".
Proof.
  destruct (str_in (lower s) predefined_periods) eqn:P.
  - rewrite (validate_period_tag_branch _ P). intros [= <-].
    left. now apply str_in_In.
  - rewrite (validate_period_day_branch _ P).
    destruct (int_of_str s) as [days|e]; [|discriminate].
    destruct (Z.ltb_spec days 1); [discriminate|].
    destruct (days >? 3650)%Z eqn:G; [discriminate|].
    intros [= <-]. right. exists days. split; [|reflexivity].
    rewrite Z.gtb_ltb in G. apply Z.ltb_ge in G. lia.
Qed.

Lemma validate_period_range_witness :
  In "3mo" predefined_periods \/
  exists n, 1 <= n <= 3650 /\ "3mo" = str_of_int n ++ "d".
Proof. apply (validate_period_range "3MO" "3mo" eq_refl). Defined.

(** A numeral followed by [d] is no integer literal. *)
Lemma int_of_str_day_tag (n : Z) :
  int_of_str (str_of_int n ++ "d") = Raise (invalid_literal (str_of_int n ++ "d")).
Proof.
  unfold int_of_str.
  assert (N0 : forall q, Pos.to_uint q <> Decimal.Nil)
    by apply DecimalPos.Unsigned.to_uint_nonnil.
  destruct n as [|q|q]; unfold str_of_int at 1; simpl Z.to_int;
    unfold NilZero.string_of_int, NilZero.string_of_uint.
  - reflexivity.
  - pose proof (N0 q) as Hq. destruct (Pos.to_uint q) eqn:U;
      [now elim Hq | rewrite <- U in *; clear U ..];
      rewrite numeral_head, digits_start by assumption; reflexivity.
  - pose proof (N0 q) as Hq. destruct (Pos.to_uint q) eqn:U;
      [now elim Hq | rewrite <- U in *; clear U ..];
      change (split_sign _)
        with (true, NilEmpty.string_of_uint (Pos.to_uint q) ++ "d");
      cbv iota beta; rewrite digits_start by assumption; reflexivity.
Qed.

Lemma str_of_int_lower (n : Z) : lower (str_of_int n) = str_of_int n.
Proof.
  apply (map_chars_id _ _ _ literal_char_lower).
  exact (int_of_str_literal _ _ (int_of_str_of_int n)).
Qed.

(** [validate_period] does not accept its own day tags: the period it
    returns validates again to itself when it is a predefined tag, and
    is rejected as unrecognised otherwise (["30"] gives ["30d"], and
    ["30d"] is an error). *)
Theorem validate_period_again (s p : string) :
  validate_period s = Return p ->
  validate_period p =
  if str_in p predefined_periods then Return p
  else Raise (ValueError_ (msg_invalid_period p)).
Proof.
  intros H. destruct (str_in p predefined_periods) eqn:P.
  - apply str_in_In in P as I. pose proof (predefined_lower _ I) as L.
    rewrite validate_period_tag_branch; rewrite L; [reflexivity | exact P].
  - destruct (validate_period_returns s p H) as [I|(n & _ & ->)].
    + apply str_in_In in I. congruence.
    + assert (L : lower (str_of_int n ++ "d") = str_of_int n ++ "d")
        by (unfold lower; rewrite map_chars_app; fold (lower (str_of_int n));
            now rewrite str_of_int_lower).
      rewrite validate_period_day_branch by now rewrite L.
      now rewrite int_of_str_day_tag.
Qed.

Lemma validate_period_again_witness :
  validate_period "30d" = Raise (ValueError_ (msg_invalid_period "30d")).
Proof. apply (validate_period_again "30" "30d" eq_refl). Defined.




Lemma spaceless_lower (s : string) : spaceless (lower s) = spaceless s.
Proof.
  unfold spaceless, lower. induction s as [|c s IH]; simpl; [reflexivity|].
  now rewrite Py_ISSPACE_lower_char, IH.
Qed.

Lemma spaceless_padded (ws1 ws2 s : string) :
  all_chars Py_ISSPACE ws1 = true ->
  all_chars Py_ISSPACE ws2 = true ->
  ws1 ++ ws2 <> "" ->
  spaceless (ws1 ++ s ++ ws2) = false.
Proof.
  intros W1 W2 N. unfold spaceless. rewrite !all_chars_app.
  destruct ws1 as [|c ws1].
  - destruct ws2 as [|c ws2]; [now elim N|]. simpl in W2 |- *.
    apply andb_true_iff in W2 as [-> _]. simpl. apply andb_false_r.
  - simpl in W1 |- *. apply andb_true_iff in W1 as [-> _]. reflexivity.
Qed.

(** The predefined tags are compared without trimming, and [int] does
    not read them: a tag with whitespace before or after it is rejected
    as unrecognised. *)
Theorem validate_period_padded_tag (ws1 ws2 t : string) :
  In t predefined_periods ->
  all_chars Py_ISSPACE ws1 = true ->
  all_chars Py_ISSPACE ws2 = true ->
  ws1 ++ ws2 <> "" ->
  validate_period (ws1 ++ t ++ ws2)
  = Raise (ValueError_ (msg_invalid_period (ws1 ++ t ++ ws2))).
Proof.
  intros T W1 W2 N.
  assert (P : str_in (lower (ws1 ++ t ++ ws2)) predefined_periods = false).
  { destruct (str_in _ _) eqn:E; [|reflexivity].
    apply str_in_In, predefined_spaceless in E.
    rewrite spaceless_lower, spaceless_padded in E; congruence. }
  rewrite (validate_period_day_branch _ P).
  assert (I : int_of_str (ws1 ++ t ++ ws2)
              = Raise (invalid_literal (ws1 ++ t ++ ws2))).
  { unfold int_of_str. rewrite (lskip_app _ _ _ W1).
    simpl in T.
    repeat (destruct T as [<-|T]; [reflexivity|]). now elim T. }
  now rewrite I.
Qed.

Lemma validate_period_padded_tag_witness :
  validate_period "1mo " = Raise (ValueError_ (msg_invalid_period "1mo ")).
Proof.
  apply (validate_period_padded_tag "" " " "1mo");
    [simpl; tauto | reflexivity | reflexivity | discriminate].
Defined.

(* ================================================================== *)
(** ** More on the run *)
(* ================================================================== *)

Lemma validate_ticker_raises (s : string) (e : exn) :
  validate_ticker s = Raise e -> e = ValueError_ msg_empty_ticker.
Proof.
  rewrite validate_ticker_alt.
  destruct (is_empty (strip s)); [now intros [= <-] | discriminate].
Qed.

Lemma run_ticker_rejected (w : World) (e : exn) :
  validate_ticker (arg_ticker w) = Raise e ->
  run w = (SystemExit 1, [Print (validation_error_line e)]).
Proof.
  intros Ht. pose proof (validate_ticker_raises _ _ Ht) as ->.
  unfold run, main, try_clauses, main_body.
  unfold seq, parse_arguments, ret. cbn [fst snd]. rewrite Ht. reflexivity.
Qed.

Lemma run_period_rejected (w : World) (t : string) (e : exn) :
  validate_ticker (arg_ticker w) = Return t ->
  validate_period (arg_period w) = Raise e ->
  run w = (SystemExit 1, [Print (validation_error_line e)]).
Proof.
  intros Ht Hp. pose proof (validate_period_raises _ _ Hp) as C.
  unfold run, main, try_clauses, main_body.
  unfold seq, parse_arguments, ret. cbn [fst snd]. rewrite Ht. cbn [lift].
  rewrite Hp. cbn [lift dispatch]. unfold isinstance. rewrite C. reflexivity.
Qed.

(** A validated run, whatever the data source answers. *)
Lemma run_shape (w : World) (t p : string) :
  validate_ticker (arg_ticker w) = Return t ->
  validate_period (arg_period w) = Return p ->
  run w = (history_outcome (yf_history w t p),
           (prelude w t p ++ epilogue t p (yf_history w t p))%list).
Proof.
  intros Ht Hp. destruct (yf_history w t p) as [[|r rest]|e] eqn:Hh.
  - exact (run_history_empty w t p Ht Hp Hh).
  - destruct (run_history_rows w t p _ Ht Hp Hh) as (st & S & R);
      [discriminate|].
    rewrite R. unfold epilogue. now rewrite S.
  - rewrite (run_history_raises w t p e Ht Hp Hh). reflexivity.
Qed.

Lemma requests_app (a b : trace) :
  requests (a ++ b)%list = (requests a ++ requests b)%list.
Proof. apply filter_app. Qed.

Lemma requests_Print (ls : list line) : requests (map Print ls) = [].
Proof. induction ls as [|l ls IH]; simpl; auto. Qed.

Lemma requests_epilogue (t p : string) (r : result DataFrame) :
  requests (epilogue t p r) = [].
Proof.
  destruct r as [[|x h]|e]; try reflexivity.
  - unfold epilogue. destruct (summary (x :: h)) as [st|?]; [|reflexivity].
    unfold report. destruct (20 <? List.length (x :: h))%nat; reflexivity.
  - unfold epilogue, failure. destruct (exn_cls e); reflexivity.
Qed.

(** With a blank ticker the run prints the validation error and exits
    with status 1, whatever the period is: the ticker is checked first,
    and nothing is asked of the data source. *)
Theorem blank_ticker_stops_the_run (w : World) :
  all_chars Py_UNICODE_ISSPACE (arg_ticker w) = true ->
  run w = (SystemExit 1,
           [Print [Txt "❌ Error de validación: "; Txt msg_empty_ticker]]).
Proof.
  intros B. apply strip_empty_iff in B.
  assert (Ht : validate_ticker (arg_ticker w)
               = Raise (ValueError_ msg_empty_ticker))
    by now rewrite validate_ticker_alt, B.
  exact (run_ticker_rejected w _ Ht).
Qed.

Lemma blank_ticker_stops_the_run_witness :
  exit_status (fst (run world_blank_ticker)) = Some 1 /\
  requests (snd (run world_blank_ticker)) = [].
Proof.
  rewrite (blank_ticker_stops_the_run world_blank_ticker eq_refl).
  split; reflexivity.
Defined.

(** With a period that [validate_period] rejects, the run prints the
    validation error with the message of the rejection and exits with
    status 1, before the banner and before any request. *)
Theorem rejected_period_stops_the_run (w : World) (t : string) (e : exn) :
  validate_ticker (arg_ticker w) = Return t ->
  validate_period (arg_period w) = Raise e ->
  run w = (SystemExit 1,
           [Print [Txt "❌ Error de validación: "; Txt (exn_str e)]]).
Proof.
  intros Ht Hp. pose proof (validate_period_raises _ _ Hp) as C.
  unfold run, main, try_clauses, main_body.
  unfold seq, parse_arguments, ret. cbn [fst snd]. rewrite Ht. cbn [lift].
  rewrite Hp. cbn [lift dispatch]. unfold isinstance. rewrite C.
  destruct e as [cls m]. reflexivity.
Qed.

Lemma rejected_period_stops_the_run_witness :
  run world_bad_period
  = (SystemExit 1,
     [Print [Txt "❌ Error de validación: "; Txt (msg_invalid_period "7d")]]).
Proof.
  apply (rejected_period_stops_the_run world_bad_period "MSFT"
           (ValueError_ (msg_invalid_period "7d"))); reflexivity.
Defined.

(** The data source is asked nothing unless both arguments validate, and
    then exactly twice: once for the metadata and then once for the
    history, with the normalised ticker and the validated period (never
    the raw arguments), whatever it answers. *)
Theorem requests_of_a_run (w : World) :
  requests (snd (run w)) =
  match validate_ticker (arg_ticker w), validate_period (arg_period w) with
  | Return t, Return p => [GetInfo t; GetHistory t p]
  | _, _ => []
  end.
Proof.
  destruct (validate_ticker (arg_ticker w)) as [t|e] eqn:Ht.
  - destruct (validate_period (arg_period w)) as [p|e] eqn:Hp.
    + rewrite (run_shape w t p Ht Hp). cbn [snd].
      rewrite requests_app, requests_epilogue. reflexivity.
    + now rewrite (run_period_rejected w t e Ht Hp).
  - now rewrite (run_ticker_rejected w e Ht).
Qed.


Lemma history_failure_hints_witness :
  exit_status (fst (run world_offline)) = Some 1 /\
  printed (snd (run world_offline))
  = ([banner_line world_offline "MSFT"; period_line "1y";
      warning_line "MSFT"; fetching_line;
      fetch_error_line (mkExn Exception "Max retries exceeded")]
     ++ remediation_hints)%list.
Proof.
  destruct (history_failure_hints world_offline "MSFT" "1y"
              (mkExn Exception "Max retries exceeded")
              eq_refl eq_refl eq_refl eq_refl) as (E & T & _).
  split; [exact E | now rewrite T].
Defined.

(** An exception of the history request that is no [Exception] (a
    keyboard interrupt) is not handled: it leaves [main] after the
    prelude, and neither an error line nor a hint is printed. *)
Theorem history_interrupt_propagates (w : World) (t p : string) (e : exn) :
  validate_ticker (arg_ticker w) = Return t ->
  validate_period (arg_period w) = Return p ->
  yf_history w t p = Raise e ->
  exn_cls e = BaseException ->
  run w = (Raised e, prelude w t p).
Proof.
  intros Ht Hp Hh C. rewrite (run_history_raises w t p e Ht Hp Hh).
  unfold failure. rewrite C. cbn [fst snd]. now rewrite app_nil_r.
Qed.

Lemma history_interrupt_propagates_witness :
  fst (run world_interrupted) = Raised (mkExn BaseException "KeyboardInterrupt").
Proof.
  now rewrite (history_interrupt_propagates world_interrupted "MSFT" "1y"
                 (mkExn BaseException "KeyboardInterrupt")
                 eq_refl eq_refl eq_refl eq_refl).
Defined.

(** The metadata are cosmetic: with other answers to the metadata
    request the run ends the same way and shows the same things after
    the request for the history; only the prelude (its company or
    warning line) differs. *)
Theorem metadata_do_not_matter (w : World) (t p : string)
        (f : string -> result Info) :
  validate_ticker (arg_ticker w) = Return t ->
  validate_period (arg_period w) = Return p ->
  fst (run (with_info w f)) = fst (run w) /\
  exists post,
    snd (run w) = (prelude w t p ++ post)%list /\
    snd (run (with_info w f)) = (prelude (with_info w f) t p ++ post)%list.
Proof.
  intros Ht Hp.
  rewrite (run_shape w t p Ht Hp), (run_shape (with_info w f) t p Ht Hp).
  split; [reflexivity|]. eexists. split; reflexivity.
Qed.

Lemma metadata_do_not_matter_witness :
  fst (run (with_info world_25 (fun _ => Raise (mkExn Exception "no")))) 
  = fst (run world_25).
Proof.
  apply (metadata_do_not_matter world_25 "AAPL" "1mo"); reflexivity.
Defined.

(** When the metadata arrive, the company line shows the long name if
    there is one, else the short name, else the ticker a second time;
    no warning is printed. *)
Theorem company_name_shown (w : World) (t p : string) (info : Info) :
  validate_ticker (arg_ticker w) = Return t ->
  validate_period (arg_period w) = Return p ->
  yf_info w t = Return info ->
  let out := printed (snd (run w)) in
  (forall n, longName info = Some n -> In (company_line n t) out) /\
  (forall n, longName info = None -> shortName info = Some n ->
             In (company_line n t) out) /\
  (longName info = None -> shortName info = None ->
   In (company_line t t) out) /\
  ~ In (warning_line t) out.
Proof.
  intros Ht Hp Hi out. unfold out.
  rewrite (run_shape w t p Ht Hp). cbn [snd].
  rewrite printed_app, printed_prelude, Hi. cbn [metadata_line].
  assert (C : forall n, company_name_of info t = n ->
                        In (company_line n t)
                           ([banner_line w t; period_line p;
                             company_line (company_name_of info t) t;
                             fetching_line]
                            ++ printed (epilogue t p (yf_history w t p)))%list).
  { intros n <-. apply in_or_app. left. simpl. tauto. }
  unfold company_name_of in C.
  split; [intros n L; apply C; now rewrite L|].
  split; [intros n L S; apply C; now rewrite L, S|].
  split; [intros L S; apply C; now rewrite L, S|].
  intros H. apply in_app_or in H as [H|H].
  - unfold warning_line in H. no_such_line H.
  - unfold warning_line in H.
    destruct (yf_history w t p) as [[|x h]|e]; unfold epilogue in H.
    + no_such_line H.
    + destruct (summary (x :: h)) as [st|?]; [|exact H].
      unfold report in H.
      destruct (20 <? List.length (x :: h))%nat; no_such_line H.
    + unfold failure in H. destruct (exn_cls e); no_such_line H.
Qed.

Lemma company_name_shown_witness :
  In (company_line "Apple Inc." "AAPL") (printed (snd (run world_25))).
Proof.
  apply (proj1 (company_name_shown world_25 "AAPL" "1mo"
                  {| longName := Some "Apple Inc."; shortName := Some "Apple" |}
                  eq_refl eq_refl eq_refl) "Apple Inc.").
  reflexivity.
Defined.

(* ================================================================== *)
(** ** More on the summary *)
(* ================================================================== *)

(** What [summary] returned was computed from a series with a first
    session. *)
Lemma summary_fields (h : DataFrame) (st : Summary) :
  summary h = Return st ->
  h <> [] /\
  change st = fsub (last_price st) (first_price st) /\
  change_percent st = fmul (fdiv (change st) (first_price st)) hundred /\
  max_price st = Series_max (map High h) /\
  min_price st = Series_min (map Low h).
Proof.
  destruct h as [|r rest]; [discriminate|].
  unfold summary.
  rewrite (iloc_last_nth (map Close (r :: rest)) S754_nan) by discriminate.
  cbn [bind map iloc_first]. intros [= <-]. cbn.
  repeat split. discriminate.
Qed.

Lemma fsub_diag (x : float) : is_finite x = true -> fsub x x = S754_zero false.
Proof.
  destruct x as [[]|[]| |s m e]; try discriminate; try reflexivity.
  intros _. unfold fsub. cbn [SFsub]. now rewrite Z.sub_diag.
Qed.

Lemma percent_of_no_change (x : float) :
  is_finite x = true -> is_zero x = false ->
  is_zero (fmul (fdiv (S754_zero false) x) hundred) = true.
Proof. destruct x as [[]|[]| |[] m e]; try discriminate; reflexivity. Qed.

(** A flat period: when the last close is the first close (so for a
    series of one session) and that close is finite, the change is
    exactly [+0]; if the close is not zero either, the percentage is a
    zero as well. *)
Theorem summary_of_flat_series (h : DataFrame) (st : Summary) :
  summary h = Return st ->
  last_price st = first_price st ->
  is_finite (first_price st) = true ->
  change st = S754_zero false /\
  (is_zero (first_price st) = false -> is_zero (change_percent st) = true).
Proof.
  intros S E F. destruct (summary_fields h st S) as (_ & C & P & _).
  assert (Z0 : change st = S754_zero false)
    by (rewrite C, E; now apply fsub_diag).
  split; [exact Z0|]. intros NZ. rewrite P, Z0.
  now apply percent_of_no_change.
Qed.

Lemma summary_of_flat_series_witness :
  exists st, summary [session 1 100] = Return st /\
             change st = S754_zero false /\
             is_zero (change_percent st) = true.
Proof.
  eexists. split; [reflexivity|].
  destruct (summary_of_flat_series [session 1 100] _ eq_refl eq_refl eq_refl)
    as [C P].
  split; [exact C | exact (P eq_refl)].
Defined.

(** The extrema are in order: when in every session the low and the high
    are numbers and the low is not above the high, the minimum shown is
    not above the maximum shown. *)
Theorem summary_min_below_max (h : DataFrame) (st : Summary) :
  summary h = Return st ->
  (forall r, In r h ->
     is_nan (Low r) = false /\ is_nan (High r) = false /\
     fleb (Low r) (High r) = true) ->
  fleb (min_price st) (max_price st) = true.
Proof.
  intros S W. destruct (summary_fields h st S) as (N & _ & _ & -> & ->).
  destruct h as [|r0 rest]; [now elim N|].
  destruct (Series_max_maximum (map High (r0 :: rest))) as [Imax Bmax];
    [discriminate|].
  destruct (Series_min_minimum (map Low (r0 :: rest))) as [Imin Bmin];
    [discriminate|].
  apply in_map_iff in Imax as (rmax & Emax & Hmax).
  apply in_map_iff in Imin as (rmin & Emin & Hmin).
  destruct (W r0 (or_introl eq_refl)) as (L0 & H0 & LH0).
  destruct (W rmax Hmax) as (_ & Nmax & _).
  destruct (W rmin Hmin) as (Nmin & _ & _).
  rewrite Emax in Nmax. rewrite Emin in Nmin.
  assert (A : fleb (Series_min (map Low (r0 :: rest))) (Low r0) = true).
  { destruct (Bmin (Low r0)) as [X|X]; [now left | congruence | exact X]. }
  assert (B : fleb (High r0) (Series_max (map High (r0 :: rest))) = true).
  { destruct (Bmax (High r0)) as [X|X]; [now left | congruence | exact X]. }
  apply (fleb_trans _ (Low r0)); trivial.
  apply (fleb_trans _ (High r0)); trivial.
Qed.

Lemma summary_min_below_max_witness :
  exists st, summary sample_history = Return st /\
             fleb (min_price st) (max_price st) = true.
Proof.
  eexists. split; [reflexivity|].
  apply (summary_min_below_max sample_history _ eq_refl).
  intros r H. simpl in H.
  repeat (destruct H as [<-|H]; [repeat split; reflexivity|]). now elim H.
Defined.
